(** * badgrclient: the resource models of [badgrclient/badgrmodels.py]

    A shallow embedding of the module's three resource models ([Assertion],
    [BadgeClass], [Issuer]) and of their common base class, followed by the
    properties the specification states about them.

    Python objects are mutable and methods may raise after having mutated
    the receiver, so every method is a computation in a state-and-exception
    monad whose state is the receiver; the state survives a raise. *)

From stdpp Require Import base strings gmap list pretty.
From Stdlib Require Import ZArith.

Set Warnings "-register-all".
Open Scope Z_scope.

(** ** Python values

    The values that flow through the module are JSON documents and the
    arguments of the calls: [None], booleans, integers, strings, lists and
    dictionaries with string keys.  Floating point numbers are left out. *)

Inductive pyval : Type :=
| PNone
| PBool (b : bool)
| PInt (n : Z)
| PStr (s : string)
| PList (l : list pyval)
| PDict (d : gmap string pyval).

(** The exceptions that can surface.  [Exception] is what the module itself
    raises ([raise Exception('...')]); [TypeError], [KeyError] and
    [IndexError] are raised by the interpreter; [ApiError] stands for whatever
    the client's transport raises on a failed request. *)

Inductive PyExc : Type :=
| Exception (msg : string)
| TypeError
| KeyError (key : pyval)
| IndexError
| ApiError (status : Z) (body : pyval).

(** How a call ends: it returns a value or raises.  [Unmodelled] marks a
    run that leaves the fragment of Python modelled here, which happens in
    one place only, when a list or a dictionary is formatted into a path. *)
Inductive Outcome (A : Type) : Type :=
| Returned (a : A)
| Raised (e : PyExc)
| Unmodelled.
Arguments Returned {A} a.
Arguments Raised {A} e.
Arguments Unmodelled {A}.

(** What an external collaborator hands back: an exception or a value. *)
Definition of_sum {A} (r : PyExc + A) : Outcome A :=
  match r with
  | inl e => Raised e
  | inr a => Returned a
  end.

(** Truth value testing, as [if x:], [not x] and [x or y] use it. *)
Definition truthy (v : pyval) : bool :=
  match v with
  | PNone => false
  | PBool b => b
  | PInt n => negb (n =? 0)
  | PStr s => negb (String.eqb s "")
  | PList l => match l with [] => false | _ => true end
  | PDict d => negb (Nat.eqb (size d) 0)
  end.

(** [x or y] evaluates to [x] when [x] is truthy and to [y] otherwise. *)
Definition py_or (x y : pyval) : pyval := if truthy x then x else y.

(** [v if v else []]. *)
Definition or_empty_list (v : pyval) : pyval := if truthy v then v else PList [].

(** [str(v)], as ['{}'.format(v)] renders a value.  Lists and dictionaries
    are outside the modelled fragment. *)
Definition py_str (v : pyval) : option string :=
  match v with
  | PNone => Some "None"
  | PBool true => Some "True"
  | PBool false => Some "False"
  | PInt n => Some (pretty n)
  | PStr s => Some s
  | PList _ | PDict _ => None
  end.

Definition is_substring (k s : string) : bool :=
  match String.index 0 k s with Some _ => true | None => false end.

Definition is_str (k : string) (v : pyval) : bool :=
  match v with PStr s => String.eqb k s | _ => false end.

(** [k in v] for a string [k]: key membership in a dictionary, element
    membership in a list, substring test in a string; the other values are
    not containers. *)
Definition py_contains (k : string) (v : pyval) : Outcome bool :=
  match v with
  | PDict d => Returned (bool_decide (is_Some (d !! k)))
  | PList l => Returned (existsb (is_str k) l)
  | PStr s => Returned (is_substring k s)
  | PNone | PBool _ | PInt _ => Raised TypeError
  end.

(** [v[k]] for a string [k]. *)
Definition getitem_str (v : pyval) (k : string) : Outcome pyval :=
  match v with
  | PDict d => match d !! k with
               | Some x => Returned x
               | None => Raised (KeyError (PStr k))
               end
  | _ => Raised TypeError
  end.

(** [v[i]] for a literal index [i >= 0]. *)
Definition getitem_nat (v : pyval) (i : nat) : Outcome pyval :=
  match v with
  | PList l => match l !! i with
               | Some x => Returned x
               | None => Raised IndexError
               end
  | PStr s => match String.get i s with
              | Some c => Returned (PStr (String c EmptyString))
              | None => Raised IndexError
              end
  | PDict _ => Raised (KeyError (PInt (Z.of_nat i)))
  | PNone | PBool _ | PInt _ => Raised TypeError
  end.

(** [v in l] and [v not in l] for a list [l] of string literals. *)
Definition in_strs (v : pyval) (l : list string) : bool :=
  match v with
  | PStr s => existsb (String.eqb s) l
  | _ => false
  end.

(** ** The client

    [BadgrClient] is not part of the module; the models only use its
    [_call_api] and [_deserialize] methods.  A request is recorded as the
    callee sees it. *)

Record ApiCall : Type := mkApiCall {
  call_path : string;
  call_method : string;
  call_data : pyval;
  call_params : pyval;
}.

(** Modelled from the spec: the API client.  [calls] is the log of the
    requests made through [_call_api], oldest first; [transport] is the
    external HTTP collaborator, which answers a request given the history
    with parsed JSON or raises; [badge_names] is the Name Cache, per issuer
    id a map from badge class name to entity id; [deserialize] is the
    client's [_deserialize]. *)
Record BadgrClient : Type := mkBadgrClient {
  transport : list ApiCall → ApiCall → PyExc + pyval;
  deserialize : pyval → PyExc + pyval;
  calls : list ApiCall;
  badge_names : gmap string (gmap string string);
}.

Definition log_call (c : ApiCall) (cl : BadgrClient) : BadgrClient :=
  {| transport := transport cl;
     deserialize := deserialize cl;
     calls := calls cl ++ [c];
     badge_names := badge_names cl |}.

(** ** Model instances *)

Inductive ModelClass : Type := AssertionCls | BadgeClassCls | IssuerCls.

(** An instance: its class, and the three attributes [Base.__init__] sets.
    The client is shared by reference in Python; each operation here has one
    receiver, so the client is threaded through the receiver. *)
Record Model : Type := mkModel {
  cls : ModelClass;
  client : BadgrClient;
  entityId : pyval;
  data : pyval;
}.

(** [Base.__init__(self, client)]. *)
Definition init (c : ModelClass) (cl : BadgrClient) : Model :=
  {| cls := c; client := cl; entityId := PNone; data := PNone |}.

Definition with_client (cl : BadgrClient) (self : Model) : Model :=
  {| cls := cls self; client := cl; entityId := entityId self; data := data self |}.

Definition with_entityId (v : pyval) (self : Model) : Model :=
  {| cls := cls self; client := client self; entityId := v; data := data self |}.

Definition with_data (v : pyval) (self : Model) : Model :=
  {| cls := cls self; client := client self; entityId := entityId self; data := v |}.

(** ** The monad of method bodies *)

Definition M (A : Type) : Type := Model → Outcome A * Model.

Definition ret {A} (a : A) : M A := λ self, (Returned a, self).

Definition raise {A} (e : PyExc) : M A := λ self, (Raised e, self).

Definition bind {A B} (m : M A) (k : A → M B) : M B :=
  λ self,
    match m self with
    | (Returned a, self') => k a self'
    | (Raised e, self') => (Raised e, self')
    | (Unmodelled, self') => (Unmodelled, self')
    end.

#[global] Instance M_ret : MRet M := @ret.
#[global] Instance M_bind : MBind M := λ A B k m, bind m k.

Definition lift {A} (o : Outcome A) : M A := λ self, (o, self).

Definition get_self : M Model := λ self, (Returned self, self).

Definition set_entityId (v : pyval) : M unit :=
  λ self, (Returned tt, with_entityId v self).

Definition set_data_attr (v : pyval) : M unit :=
  λ self, (Returned tt, with_data v self).

(** ['...{}...'.format(v)]: the rendering of [v]. *)
Definition format (v : pyval) : M string :=
  match py_str v with
  | Some s => ret s
  | None => λ self, (Unmodelled, self)
  end.

(** Modelled from the spec: [BadgrClient._call_api(path, method='GET',
    data=None, params=None)], the single call primitive.  It hands the
    request to the transport and returns the parsed body, or lets the
    transport's exception through; the request is logged either way. *)
Definition _call_api (path method : string) (payload params : pyval) : M pyval :=
  λ self,
    let c := mkApiCall path method payload params in
    (of_sum (transport (client self) (calls (client self)) c),
     with_client (log_call c (client self)) self).

(** [self.client._deserialize(v)]. *)
Definition _deserialize (v : pyval) : M pyval :=
  λ self, (of_sum (deserialize (client self) v), self).

(** [cls(self.client).method(...)]: the method runs on a new instance that
    shares the receiver's client; what it does to the client shows through
    the receiver, and the new instance is dropped. *)
Definition on_new {A} (c : ModelClass) (m : M A) : M A :=
  λ self,
    let '(r, obj) := m (init c (client self)) in
    (r, with_client (client obj) self).

(** ** Methods, decorators and calls

    A function defined with [def] takes the positional arguments after
    [self]; binding them to the parameters fails with a [TypeError] when the
    count is wrong.  A class attribute either holds such a function or, when
    the expression bound to it evaluated to [None], holds [None]. *)

Definition Method : Type := list pyval → M pyval.
Definition Attr : Type := option Method.

(** Calling an attribute: [None] is not callable. *)
Definition call (a : Attr) (args : list pyval) : M pyval :=
  match a with
  | Some f => f args
  | None => raise TypeError
  end.

(** The inner function of [eid_required]. *)
Definition check_id (func : Method) : Method :=
  λ args,
    self ← get_self;
    if truthy (entityId self)
    then func args
    else raise (Exception "entityId is required for this operation").

(** [eid_required(func)] defines [check_id] and ends: there is no [return]
    statement, so the call evaluates to [None]. *)
Definition eid_required (func : Method) : Attr :=
  let check_id := check_id func in
  None.

(** ** [class Base] *)

Module Base.

(** [Base.set_data(self, data)]: the assignment to [self.data] comes
    first, so it stands when the membership test or the lookup raises. *)
Definition set_data (d : pyval) : M Model :=
  set_data_attr d;;
  present ← lift (py_contains "entityId" d);
  (if present : bool
   then v ← lift (getitem_str d "entityId"); set_entityId v
   else ret tt);;
  get_self.

(** The class attribute [ENDPOINT] of the three subclasses. *)
Definition ENDPOINT (c : ModelClass) : string :=
  match c with
  | AssertionCls => "/v2/assertions"
  | BadgeClassCls => "/v2/badgeclasses"
  | IssuerCls => "/v2/issuers"
  end.

(** [Base.get_entity_ep(self)]. *)
Definition get_entity_ep : M string :=
  self ← get_self;
  eid ← format (entityId self);
  ret (ENDPOINT (cls self) +:+ "/" +:+ eid).

(** The function [def delete(self)] that [eid_required] is applied to. *)
Definition delete_def : Method :=
  λ args,
    match args with
    | [] =>
        ep ← get_entity_ep;
        response ← _call_api ep "DELETE" PNone PNone;
        ret response
    | _ => raise TypeError
    end.

(** The function [def fetch(self)]. *)
Definition fetch_def : Method :=
  λ args,
    match args with
    | [] =>
        ep ← get_entity_ep;
        response ← _call_api ep "GET" PNone PNone;
        results ← lift (getitem_str response "result");
        result ← lift (getitem_nat results 0);
        set_data result;;
        ret PNone
    | _ => raise TypeError
    end.

(** The attribute [Base.fetch], after decoration. *)
Definition fetch : Attr := eid_required fetch_def.

(** The function [def update(self)]; [self.fetch] is looked up when the
    line runs and gets the decorated attribute. *)
Definition update_def : Method :=
  λ args,
    match args with
    | [] =>
        ep ← get_entity_ep;
        self ← get_self;
        response ← _call_api ep "PUT" (data self) PNone;
        ep' ← get_entity_ep;
        call fetch [PStr ep'];;
        ret response
    | _ => raise TypeError
    end.

Definition delete : Attr := eid_required delete_def.
Definition update : Attr := eid_required update_def.

End Base.

(** The tail every [create] shares:
    [self.set_data(response['result'][0]); return True]. *)
Definition store_created (response : pyval) : M pyval :=
  results ← lift (getitem_str response "result");
  result ← lift (getitem_nat results 0);
  Base.set_data result;;
  ret (PBool true).

(** ** [class Assertion(Base)] *)

Module Assertion.

Definition ENDPOINT : string := Base.ENDPOINT AssertionCls.

(** [Assertion.create(self, badgeclass, recipient_email, evidence=None)]. *)
Definition create (badgeclass recipient_email evidence : pyval) : M pyval :=
  let payload := PDict (
    <["badgeclass" := badgeclass]> (
    <["recipient" := PDict (
        <["type" := PStr "email"]> (
        <["identity" := recipient_email]> ∅))]> (
    <["evidence" := evidence]> ∅))) in
  response ← _call_api ENDPOINT "POST" payload PNone;
  store_created response.

(** The function [def revoke(self, reason)]. *)
Definition revoke_def : Method :=
  λ args,
    match args with
    | [reason] =>
        self ← get_self;
        eid ← format (entityId self);
        response ← _call_api (ENDPOINT +:+ "/" +:+ eid) "DELETE" PNone PNone;
        ret response
    | _ => raise TypeError
    end.

Definition revoke : Attr := eid_required revoke_def.

End Assertion.

(** ** [class BadgeClass(Base)] *)

Module BadgeClass.

Definition ENDPOINT : string := Base.ENDPOINT BadgeClassCls.

(** The function [def fetch_assertions(self, recipient=None, num=None)]. *)
Definition fetch_assertions_def : Method :=
  λ args,
    match args with
    | [] | [_] | [_; _] =>
        self ← get_self;
        eid ← format (entityId self);
        response ← _call_api (ENDPOINT +:+ "/" +:+ eid +:+ "/assertions")
                             "GET" PNone PNone;
        results ← lift (getitem_str response "result");
        _deserialize results
    | _ => raise TypeError
    end.

Definition fetch_assertions : Attr := eid_required fetch_assertions_def.

(** The message of the criteria check; the string literal is continued
    over a line break with a backslash, so the indentation of the second
    line is part of it. *)
Definition criteria_required : string :=
  "At least one of criteria_text and                 criteria_url is required".

(** [BadgeClass.create(self, name, image, description, issuer_eid,
    criteria_text=None, criteria_url=None, alignment=None, tags=None,
    expires=None)]. *)
Definition create
    (name image description issuer_eid
     criteria_text criteria_url alignment tags expires : pyval) : M pyval :=
  if negb (truthy (py_or criteria_text criteria_url))
  then raise (Exception criteria_required)
  else
    let payload := PDict (
      <["name" := name]> (
      <["image" := image]> (
      <["issuer" := issuer_eid]> (
      <["description" := description]> (
      <["criteria_text" := criteria_text]> (
      <["criteria_url" := criteria_url]> (
      <["alignments" := or_empty_list alignment]> (
      <["tags" := or_empty_list tags]> (
      <["expires" := expires]> ∅))))))))) in
    response ← _call_api ENDPOINT "POST" payload PNone;
    store_created response.

End BadgeClass.

(** ** [class Issuer(Base)] *)

Module Issuer.

Definition ENDPOINT : string := Base.ENDPOINT IssuerCls.

(** [V1_ENDPOINT.format(slug=v)] for
    [V1_ENDPOINT = '/v1/issuer/issuers/{slug}/staff']. *)
Definition V1_ENDPOINT_format (slug : pyval) : M string :=
  s ← format slug;
  ret ("/v1/issuer/issuers/" +:+ s +:+ "/staff").

(** [Issuer.create(self, name, description, email, url)]. *)
Definition create (name description email url : pyval) : M pyval :=
  let payload := PDict (
    <["name" := name]> (
    <["description" := description]> (
    <["email" := email]> (
    <["url" := url]> ∅)))) in
  response ← _call_api ENDPOINT "POST" payload PNone;
  store_created response.

(** The function [def edit_staff(self, action, email, role)]. *)
Definition edit_staff_def : Method :=
  λ args,
    match args with
    | [action; email; role] =>
        if negb (in_strs action ["add"; "modify"; "remove"])
        then raise (Exception "Action must be one of 'add', 'modify' or 'remove'")
        else if negb (in_strs role ["owner"; "editor"; "staff"])
        then raise (Exception "Action must be one of 'owner', 'editor', or 'staff'")
        else
          let payload := PDict (
            <["action" := action]> (
            <["email" := email]> (
            <["role" := role]> ∅))) in
          self ← get_self;
          ep ← V1_ENDPOINT_format (entityId self);
          response ← _call_api ep "POST" payload PNone;
          ep' ← Base.get_entity_ep;
          call Base.fetch [PStr ep'];;
          ret response
    | _ => raise TypeError
    end.

Definition edit_staff : Attr := eid_required edit_staff_def.

(** The function [def fetch_assertions(self)]. *)
Definition fetch_assertions_def : Method :=
  λ args,
    match args with
    | [] =>
        self ← get_self;
        eid ← format (entityId self);
        response ← _call_api (ENDPOINT +:+ "/" +:+ eid +:+ "/assertions")
                             "GET" PNone PNone;
        results ← lift (getitem_str response "result");
        _deserialize results
    | _ => raise TypeError
    end.

Definition fetch_assertions : Attr := eid_required fetch_assertions_def.

(** The function [def fetch_badgeclasses(self)]. *)
Definition fetch_badgeclasses_def : Method :=
  λ args,
    match args with
    | [] =>
        self ← get_self;
        eid ← format (entityId self);
        response ← _call_api (ENDPOINT +:+ "/" +:+ eid +:+ "/badgeclasses")
                             "GET" PNone PNone;
        results ← lift (getitem_str response "result");
        _deserialize results
    | _ => raise TypeError
    end.

Definition fetch_badgeclasses : Attr := eid_required fetch_badgeclasses_def.

(** The function [def create_badgeclass(self, name, image, description,
    criteria_text=None, criteria_url=None, alignment=None, tags=None,
    expires=None)]: it creates through a new [BadgeClass(self.client)]. *)
Definition create_badgeclass_def : Method :=
  λ args,
    match args with
    | name :: image :: description :: optional =>
        match optional ++ replicate (5 - length optional) PNone with
        | [criteria_text; criteria_url; alignment; tags; expires] =>
            self ← get_self;
            on_new BadgeClassCls
              (BadgeClass.create name image description (entityId self)
                 criteria_text criteria_url alignment tags expires)
        | _ => raise TypeError
        end
    | _ => raise TypeError
    end.

Definition create_badgeclass : Attr := eid_required create_badgeclass_def.

End Issuer.

(** ** Write operations

    The operations that send local state to the server, as one type, so
    that a property of all of them is one statement.  [Update] is
    [instance.update(...)] as a caller reaches it, through the class
    attribute; [GuardedUpdate] is the guard [check_id] applied to the
    function [update] as it is written. *)

Inductive WriteOp : Type :=
| IssuerCreate (name description email url : pyval)
| BadgeClassCreate (name image description issuer_eid
                    criteria_text criteria_url alignment tags expires : pyval)
| AssertionCreate (badgeclass recipient_email evidence : pyval)
| Update (args : list pyval)
| GuardedUpdate (args : list pyval).

Definition run_write (op : WriteOp) : M pyval :=
  match op with
  | IssuerCreate name description email url =>
      Issuer.create name description email url
  | BadgeClassCreate name image description issuer_eid
                     criteria_text criteria_url alignment tags expires =>
      BadgeClass.create name image description issuer_eid
                        criteria_text criteria_url alignment tags expires
  | AssertionCreate badgeclass recipient_email evidence =>
      Assertion.create badgeclass recipient_email evidence
  | Update args => call Base.update args
  | GuardedUpdate args => check_id Base.update_def args
  end.


(** ** Clients and instances used in the examples *)

(** A transport that answers every request with one entity of id [id1]. *)
Definition answering : list ApiCall → ApiCall → PyExc + pyval :=
  λ _ _, inr (PDict {[ "result" := PList [PDict {[ "entityId" := PStr "id1" ]}] ]}).

(** A transport that refuses every request. *)
Definition refusing : list ApiCall → ApiCall → PyExc + pyval :=
  λ _ _, inl (ApiError 500 PNone).

(** A client with an empty log whose Name Cache is loaded for issuer [X]
    with the badge class name [Speak Up!] mapped to [id1]. *)
Definition loaded_client (t : list ApiCall → ApiCall → PyExc + pyval) : BadgrClient :=
  {| transport := t;
     deserialize := λ v, inr v;
     calls := [];
     badge_names := {[ "X" := {[ "Speak Up!" := "id1" ]} ]} |}.

(** An instance that already has an entity id and local data. *)
Definition known (c : ModelClass) (t : list ApiCall → ApiCall → PyExc + pyval) : Model :=
  {| cls := c;
     client := loaded_client t;
     entityId := PStr "abc";
     data := PDict {[ "entityId" := PStr "abc"; "name" := PStr "old" ]} |}.

(** The payload [BadgeClass.create] builds. *)
Definition badgeclass_payload
    (name image description issuer_eid
     criteria_text criteria_url alignment tags expires : pyval) : pyval :=
  PDict (
    <["name" := name]> (
    <["image" := image]> (
    <["issuer" := issuer_eid]> (
    <["description" := description]> (
    <["criteria_text" := criteria_text]> (
    <["criteria_url" := criteria_url]> (
    <["alignments" := or_empty_list alignment]> (
    <["tags" := or_empty_list tags]> (
    <["expires" := expires]> ∅))))))))).

(** The request [BadgeClass.create] makes. *)
Definition badgeclass_request
    (name image description issuer_eid
     criteria_text criteria_url alignment tags expires : pyval) : ApiCall :=
  mkApiCall "/v2/badgeclasses" "POST"
    (badgeclass_payload name image description issuer_eid
       criteria_text criteria_url alignment tags expires) PNone.

(** The criteria check of [BadgeClass.create] has rejected the call: the
    call raised the criteria exception and left the instance and its client,
    request log included, as they were. *)
Definition rejects_criteria (r : Outcome pyval * Model) (self : Model) : Prop :=
  r = (Raised (Exception BadgeClass.criteria_required), self).

(** The criteria precondition as the specification words it: the call is
    rejected when both criteria are [None], and is not rejected when at
    least one of them is supplied. *)
Definition criteria_rule_as_specified : Prop :=
  ∀ name image description issuer_eid criteria_text criteria_url
    alignment tags expires self,
    (criteria_text = PNone → criteria_url = PNone →
       rejects_criteria
         (BadgeClass.create name image description issuer_eid
            criteria_text criteria_url alignment tags expires self) self) ∧
    (criteria_text ≠ PNone ∨ criteria_url ≠ PNone →
       ¬ rejects_criteria
         (BadgeClass.create name image description issuer_eid
            criteria_text criteria_url alignment tags expires self) self).

(** ** Every function of the module

    The functions that [eid_required] is applied to, by name, and the ways
    an operation on an instance can be run: one of the write operations
    above, [set_data], [get_entity_ep], a decorated method as a caller
    reaches it through the class attribute, the function behind it as it is
    written, or that function under the guard [check_id]. *)

Inductive Func : Type :=
| F_delete
| F_update
| F_fetch
| F_revoke
| F_fetch_assertions
| F_edit_staff
| F_issuer_fetch_assertions
| F_fetch_badgeclasses
| F_create_badgeclass.

Definition def_of (f : Func) : Method :=
  match f with
  | F_delete => Base.delete_def
  | F_update => Base.update_def
  | F_fetch => Base.fetch_def
  | F_revoke => Assertion.revoke_def
  | F_fetch_assertions => BadgeClass.fetch_assertions_def
  | F_edit_staff => Issuer.edit_staff_def
  | F_issuer_fetch_assertions => Issuer.fetch_assertions_def
  | F_fetch_badgeclasses => Issuer.fetch_badgeclasses_def
  | F_create_badgeclass => Issuer.create_badgeclass_def
  end.

Definition attr_of (f : Func) : Attr :=
  match f with
  | F_delete => Base.delete
  | F_update => Base.update
  | F_fetch => Base.fetch
  | F_revoke => Assertion.revoke
  | F_fetch_assertions => BadgeClass.fetch_assertions
  | F_edit_staff => Issuer.edit_staff
  | F_issuer_fetch_assertions => Issuer.fetch_assertions
  | F_fetch_badgeclasses => Issuer.fetch_badgeclasses
  | F_create_badgeclass => Issuer.create_badgeclass
  end.

Inductive Operation : Type :=
| Write (op : WriteOp)
| SetData (d : pyval)
| GetEntityEp
| ViaAttribute (f : Func) (args : list pyval)
| AsWritten (f : Func) (args : list pyval)
| Guarded (f : Func) (args : list pyval).

(** A run with its result forgotten: how it ended, and the instance. *)
Definition void {A} (m : M A) : M unit :=
  λ self,
    match m self with
    | (Returned _, self') => (Returned tt, self')
    | (Raised e, self') => (Raised e, self')
    | (Unmodelled, self') => (Unmodelled, self')
    end.

Definition run_operation (o : Operation) : M unit :=
  match o with
  | Write op => void (run_write op)
  | SetData d => void (Base.set_data d)
  | GetEntityEp => void Base.get_entity_ep
  | ViaAttribute f args => void (call (attr_of f) args)
  | AsWritten f args => void (def_of f args)
  | Guarded f args => void (check_id (def_of f) args)
  end.

(** The operations that can store something into the instance: [set_data]
    itself, the three [create] operations and the function [fetch]. *)
Definition may_store (o : Operation) : bool :=
  match o with
  | SetData _ => true
  | Write (IssuerCreate _ _ _ _) => true
  | Write (BadgeClassCreate _ _ _ _ _ _ _ _ _) => true
  | Write (AssertionCreate _ _ _) => true
  | AsWritten F_fetch _ | Guarded F_fetch _ => true
  | _ => false
  end.

(** [response['result'][0]], the entity a response carries. *)
Definition first_result (response : pyval) : Outcome pyval :=
  match getitem_str response "result" with
  | Returned results => getitem_nat results 0
  | Raised e => Raised e
  | Unmodelled => Unmodelled
  end.


(** The request [fetch], [update] and [delete] address: the entity endpoint
    of class [c] for the rendered id [eid]. *)
Definition entity_request (c : ModelClass) (eid : string) (method : string)
    (payload : pyval) : ApiCall :=
  mkApiCall (Base.ENDPOINT c +:+ "/" +:+ eid) method payload PNone.

(** The path a listing function requests for the rendered id [eid]; the
    other functions list nothing. *)
Definition listing_path (f : Func) (eid : string) : option string :=
  match f with
  | F_fetch_assertions => Some ("/v2/badgeclasses/" +:+ eid +:+ "/assertions")
  | F_issuer_fetch_assertions => Some ("/v2/issuers/" +:+ eid +:+ "/assertions")
  | F_fetch_badgeclasses => Some ("/v2/issuers/" +:+ eid +:+ "/badgeclasses")
  | _ => None
  end.

(** What an operation may do to the client and to the class of the
    instance: nothing but append at most [n] requests to the log. *)
Definition appends_at_most (n : nat) (self self' : Model) : Prop :=
  cls self' = cls self
  ∧ transport (client self') = transport (client self)
  ∧ deserialize (client self') = deserialize (client self)
  ∧ badge_names (client self') = badge_names (client self)
  ∧ ∃ l, calls (client self') = calls (client self) ++ l ∧ (length l ≤ n)%nat.

(** The entity id and the local data are the same in two instances. *)
Definition same_entity (self self' : Model) : Prop :=
  entityId self' = entityId self ∧ data self' = data self.


(** Every run of [m] relates the instance before to the instance after. *)
Definition always {A} (R : Model → Model → Prop) (m : M A) : Prop :=
  ∀ self, R self (snd (m self)).

(** * Properties *)

Ltac run :=
  cbv [mbind M_bind mret M_ret bind ret raise lift get_self
       set_entityId set_data_attr _call_api _deserialize call
       check_id eid_required format of_sum].

Lemma call_decorated (func : Method) (args : list pyval) (self : Model) :
  call (eid_required func) args self = (Raised TypeError, self).
Proof. reflexivity. Qed.

Lemma check_id_run (func : Method) (args : list pyval) (self : Model) :
  check_id func args self
  = if truthy (entityId self)
    then func args self
    else (Raised (Exception "entityId is required for this operation"), self).
Proof.
  unfold check_id. run. destruct (truthy (entityId self)); reflexivity.
Qed.

Lemma app_singleton_neq {A} (l : list A) (x : A) : l ++ [x] ≠ l.
Proof.
  intros H. apply (f_equal length) in H.
  rewrite length_app in H. simpl in H. lia.
Qed.

(** What [store_created] does once the response is in: it never touches
    the request log. *)
Lemma set_data_calls (d : pyval) (self : Model) :
  calls (client (snd (Base.set_data d self))) = calls (client self).
Proof.
  unfold Base.set_data. run.
  destruct d; simpl; try reflexivity.
  - destruct (is_substring _ _); reflexivity.
  - destruct (existsb _ _); reflexivity.
  - destruct (d !! "entityId"); reflexivity.
Qed.

Lemma store_created_calls (response : pyval) (self : Model) :
  calls (client (snd (store_created response self))) = calls (client self).
Proof.
  unfold store_created. run.
  destruct (getitem_str response "result") as [results| |]; try reflexivity.
  destruct (getitem_nat results 0) as [result| |]; try reflexivity.
  pose proof (set_data_calls result self) as H.
  destruct (Base.set_data result self) as [[?|?|] ?]; exact H.
Qed.


(** C10: [set_data(d)] for a dictionary [d] stores [d] as the data, takes
    the entity id from [d] when the key [entityId] is present and keeps the
    previous one otherwise, keeps the class and the client, raises nothing
    and returns the receiver itself. *)
Theorem set_data_frame (self : Model) (d : gmap string pyval) :
  let self' := {| cls := cls self;
                  client := client self;
                  entityId := default (entityId self) (d !! "entityId");
                  data := PDict d |} in
  Base.set_data (PDict d) self = (Returned self', self').
Proof.
  unfold Base.set_data. run. simpl.
  destruct (d !! "entityId") as [v|]; simpl.
  - reflexivity.
  - destruct self; reflexivity.
Qed.




Lemma badgeclass_create_passed
    (name image description issuer_eid
     criteria_text criteria_url alignment tags expires : pyval) (self : Model) :
  truthy (py_or criteria_text criteria_url) = true →
  calls (client (snd (BadgeClass.create name image description issuer_eid
                        criteria_text criteria_url alignment tags expires self)))
  = calls (client self)
    ++ [mkApiCall "/v2/badgeclasses" "POST"
          (badgeclass_payload name image description issuer_eid
             criteria_text criteria_url alignment tags expires) PNone].
Proof.
  intros Hpass. unfold BadgeClass.create. rewrite Hpass.
  cbv [negb mbind M_bind bind _call_api]. cbv beta.
  match goal with |- context [transport ?cl ?h ?c] =>
    destruct (transport cl h c) as [e|response] end.
  - reflexivity.
  - simpl. rewrite store_created_calls. reflexivity.
Qed.

(** C5, as the specification words it, fails: an empty string is a
    supplied criterion, and the call is rejected all the same. *)
Lemma criteria_rule_as_specified_fails : ¬ criteria_rule_as_specified.
Proof.
  intros Hrule.
  destruct (Hrule (PStr "Speak Up!") (PStr "idk") (PStr "something") (PStr "X")
              (PStr "") PNone PNone PNone PNone
              (init BadgeClassCls (loaded_client answering))) as [_ Hsupplied].
  apply Hsupplied.
  - left. discriminate.
  - reflexivity.
Qed.

Lemma store_created_raises_no_exception
    (response : pyval) (self : Model) (msg : string) :
  fst (store_created response self) ≠ Raised (Exception msg).
Proof.
  unfold store_created, Base.set_data. run.
  destruct (getitem_str response "result") as [results|e|] eqn:Hresults; simpl.
  - destruct (getitem_nat results 0) as [result|e|] eqn:Hresult; simpl.
    + destruct (py_contains "entityId" result) as [[|]|e|] eqn:Hin; simpl.
      * destruct (getitem_str result "entityId") as [v|e|] eqn:Hv; simpl;
          try discriminate.
        unfold getitem_str in Hv. repeat case_match; simplify_eq; discriminate.
      * discriminate.
      * unfold py_contains in Hin. repeat case_match; simplify_eq; discriminate.
      * discriminate.
    + unfold getitem_nat in Hresult. repeat case_match; simplify_eq; discriminate.
    + discriminate.
  - unfold getitem_str in Hresults. repeat case_match; simplify_eq; discriminate.
  - discriminate.
Qed.

Lemma badgeclass_create_run
    (name image description issuer_eid
     criteria_text criteria_url alignment tags expires : pyval) (self : Model) :
  truthy (py_or criteria_text criteria_url) = true →
  BadgeClass.create name image description issuer_eid
    criteria_text criteria_url alignment tags expires self
  = match transport (client self) (calls (client self))
            (badgeclass_request name image description issuer_eid
               criteria_text criteria_url alignment tags expires) with
    | inl e =>
        (Raised e,
         with_client
           (log_call (badgeclass_request name image description issuer_eid
                        criteria_text criteria_url alignment tags expires)
              (client self)) self)
    | inr response =>
        store_created response
          (with_client
             (log_call (badgeclass_request name image description issuer_eid
                          criteria_text criteria_url alignment tags expires)
                (client self)) self)
    end.
Proof.
  intros Hpass. unfold BadgeClass.create. rewrite Hpass.
  cbv [negb mbind M_bind bind _call_api]. cbv beta.
  change BadgeClass.ENDPOINT with "/v2/badgeclasses".
  unfold badgeclass_request, badgeclass_payload.
  destruct (transport (client self) (calls (client self)) _); reflexivity.
Qed.

(** C5, amended: [BadgeClass.create] tests the criteria for truth.  When
    both [criteria_text] and [criteria_url] are falsy ([None] or an empty
    string, for instance) the call raises the criteria exception and makes
    no request.  When at least one of them is truthy no such error is
    raised: the call makes exactly one request, the POST of the payload to
    the badge class collection; it ends as the transport and the reading of
    its answer end, raising what the transport raises or going on to store
    the entity of the response; and it raises an [Exception], the criteria
    one or any other, only when the transport itself raised it. *)
Theorem create_criteria_check
    (name image description issuer_eid
     criteria_text criteria_url alignment tags expires : pyval) (self : Model) :
  (truthy criteria_text = false → truthy criteria_url = false →
     rejects_criteria
       (BadgeClass.create name image description issuer_eid
          criteria_text criteria_url alignment tags expires self) self)
  ∧ (truthy criteria_text = true ∨ truthy criteria_url = true →
       calls (client (snd (BadgeClass.create name image description issuer_eid
                             criteria_text criteria_url alignment tags expires self)))
       = calls (client self)
         ++ [mkApiCall "/v2/badgeclasses" "POST"
               (badgeclass_payload name image description issuer_eid
                  criteria_text criteria_url alignment tags expires) PNone]
       ∧ ¬ rejects_criteria
             (BadgeClass.create name image description issuer_eid
                criteria_text criteria_url alignment tags expires self) self
       ∧ BadgeClass.create name image description issuer_eid
           criteria_text criteria_url alignment tags expires self
         = match transport (client self) (calls (client self))
                   (badgeclass_request name image description issuer_eid
                      criteria_text criteria_url alignment tags expires) with
           | inl e =>
               (Raised e,
                with_client
                  (log_call (badgeclass_request name image description issuer_eid
                               criteria_text criteria_url alignment tags expires)
                     (client self)) self)
           | inr response =>
               store_created response
                 (with_client
                    (log_call (badgeclass_request name image description issuer_eid
                                 criteria_text criteria_url alignment tags expires)
                       (client self)) self)
           end
       ∧ ∀ msg,
           fst (BadgeClass.create name image description issuer_eid
                  criteria_text criteria_url alignment tags expires self)
           = Raised (Exception msg) →
           transport (client self) (calls (client self))
             (badgeclass_request name image description issuer_eid
                criteria_text criteria_url alignment tags expires)
           = inl (Exception msg)).
Proof.
  split.
  - intros Htext Hurl. unfold rejects_criteria, BadgeClass.create, py_or.
    rewrite Htext, Hurl. reflexivity.
  - intros Hsome.
    assert (Hpass : truthy (py_or criteria_text criteria_url) = true).
    { unfold py_or. destruct (truthy criteria_text) eqn:Htext; [exact Htext|].
      destruct Hsome as [Habs|Hurl]; [discriminate|exact Hurl]. }
    pose proof (badgeclass_create_passed name image description issuer_eid
                  criteria_text criteria_url alignment tags expires self Hpass) as Hpost.
    pose proof (badgeclass_create_run name image description issuer_eid
                  criteria_text criteria_url alignment tags expires self Hpass) as Hrun.
    split; [exact Hpost|]. split; [|split; [exact Hrun|]].
    + unfold rejects_criteria. intros Hrej. rewrite Hrej in Hpost. simpl in Hpost.
      symmetry in Hpost. exact (app_singleton_neq _ _ Hpost).
    + intros msg. rewrite Hrun.
      destruct (transport (client self) (calls (client self)) _) as [e|response];
        simpl.
      * intros [= ->]. reflexivity.
      * intros Hexc. exfalso.
        exact (store_created_raises_no_exception _ _ _ Hexc).
Qed.

Lemma create_criteria_check_witness :
  rejects_criteria
    (BadgeClass.create (PStr "Speak Up!") (PStr "idk") (PStr "something") (PStr "X")
       (PStr "") PNone PNone PNone PNone
       (init BadgeClassCls (loaded_client answering)))
    (init BadgeClassCls (loaded_client answering))
  ∧ calls (client (snd (BadgeClass.create
       (PStr "Speak Up!") (PStr "idk") (PStr "something") (PStr "Y")
       (PStr "hahahaha") PNone PNone PNone PNone
       (init BadgeClassCls (loaded_client answering)))))
    = [mkApiCall "/v2/badgeclasses" "POST"
         (badgeclass_payload (PStr "Speak Up!") (PStr "idk") (PStr "something")
            (PStr "Y") (PStr "hahahaha") PNone PNone PNone PNone) PNone]
  ∧ ∀ msg,
      fst (BadgeClass.create
             (PStr "Speak Up!") (PStr "idk") (PStr "something") (PStr "Y")
             (PStr "hahahaha") PNone PNone PNone PNone
             (init BadgeClassCls (loaded_client refusing)))
      = Raised (Exception msg) →
      refusing []
        (badgeclass_request (PStr "Speak Up!") (PStr "idk") (PStr "something")
           (PStr "Y") (PStr "hahahaha") PNone PNone PNone PNone)
      = inl (Exception msg).
Proof.
  split; [|split].
  - apply (create_criteria_check (PStr "Speak Up!") (PStr "idk") (PStr "something")
             (PStr "X") (PStr "") PNone PNone PNone PNone
             (init BadgeClassCls (loaded_client answering))); reflexivity.
  - apply (create_criteria_check (PStr "Speak Up!") (PStr "idk") (PStr "something")
             (PStr "Y") (PStr "hahahaha") PNone PNone PNone PNone
             (init BadgeClassCls (loaded_client answering))).
    left. reflexivity.
  - apply (create_criteria_check (PStr "Speak Up!") (PStr "idk") (PStr "something")
             (PStr "Y") (PStr "hahahaha") PNone PNone PNone PNone
             (init BadgeClassCls (loaded_client refusing))).
    left. reflexivity.
Defined.

(** ** Where the module departs from the specification *)

(** C1: on an instance without an entity id, [fetch()], [update()] and
    [delete()] make no request, but what they raise is the interpreter's
    [TypeError] for calling [None], not the exception of the id guard:
    [eid_required] returns nothing, so the three attributes hold [None],
    on every instance.  The guard [check_id], had it been returned, would
    have raised the exception the module words, for an id that is [None]
    and for one that is empty. *)
Theorem fetch_update_delete_without_id
    (self : Model) (c : ModelClass) (cl : BadgrClient) (d : pyval) :
  call Base.fetch [] self = (Raised TypeError, self)
  ∧ call Base.update [] self = (Raised TypeError, self)
  ∧ call Base.delete [] self = (Raised TypeError, self)
  ∧ check_id Base.fetch_def [] (mkModel c cl PNone d)
    = (Raised (Exception "entityId is required for this operation"),
       mkModel c cl PNone d)
  ∧ check_id Base.fetch_def [] (mkModel c cl (PStr "") d)
    = (Raised (Exception "entityId is required for this operation"),
       mkModel c cl (PStr "") d).
Proof. repeat split. Qed.

(** C2: [Assertion.create] takes the badge class as it is given, checks
    nothing and resolves nothing: whatever the arguments, its one request is
    a POST to the assertion collection [/v2/assertions] with the badge class
    inside the payload, and with [None] for a badge class and a client whose
    Name Cache is loaded it returns [True]. *)
Theorem assertion_create_posts_to_collection
    (badgeclass recipient_email evidence : pyval) (self : Model) :
  calls (client (snd (Assertion.create badgeclass recipient_email evidence self)))
  = calls (client self)
    ++ [mkApiCall "/v2/assertions" "POST"
          (PDict (<["badgeclass" := badgeclass]> (
                  <["recipient" := PDict (<["type" := PStr "email"]> (
                                          <["identity" := recipient_email]> ∅))]> (
                  <["evidence" := evidence]> ∅)))) PNone]
  ∧ fst (Assertion.create PNone (PStr "test@test.com") PNone
           (init AssertionCls (loaded_client answering))) = Returned (PBool true).
Proof.
  split; [|reflexivity].
  unfold Assertion.create. cbv [mbind M_bind bind _call_api]. cbv beta.
  match goal with |- context [transport ?cl ?h ?c] =>
    destruct (transport cl h c) as [e|response] end.
  - reflexivity.
  - simpl. rewrite store_created_calls. reflexivity.
Qed.

(** C3: [BadgeClass.create] never consults the Name Cache.  With the cache
    loaded for issuer [X] and holding the name [Speak Up!], creating a badge
    class of that name under that issuer sends the POST and returns
    [True]. *)
Theorem badgeclass_create_ignores_name_cache :
  (badge_names (loaded_client answering) !! "X") ≫= (λ names, names !! "Speak Up!")
  = Some "id1"
  ∧ fst (BadgeClass.create (PStr "Speak Up!") (PStr "idk") (PStr "something")
           (PStr "X") (PStr "hahahaha") PNone PNone PNone PNone
           (init BadgeClassCls (loaded_client answering)))
    = Returned (PBool true)
  ∧ calls (client (snd (BadgeClass.create
        (PStr "Speak Up!") (PStr "idk") (PStr "something")
        (PStr "X") (PStr "hahahaha") PNone PNone PNone PNone
        (init BadgeClassCls (loaded_client answering)))))
    = [mkApiCall "/v2/badgeclasses" "POST"
         (badgeclass_payload (PStr "Speak Up!") (PStr "idk") (PStr "something")
            (PStr "X") (PStr "hahahaha") PNone PNone PNone PNone) PNone].
Proof. repeat split. Qed.

(** C4: [revoke(reason)] cannot be called, since the attribute holds
    [None]; and the function behind it never uses [reason]: on an assertion
    it does what the function behind [delete()] does, a DELETE of the entity
    endpoint with no payload. *)
Theorem revoke_drops_reason
    (cl : BadgrClient) (eid d reason : pyval) :
  call Assertion.revoke [reason] (mkModel AssertionCls cl eid d)
  = (Raised TypeError, mkModel AssertionCls cl eid d)
  ∧ Assertion.revoke_def [reason] (mkModel AssertionCls cl eid d)
    = Base.delete_def [] (mkModel AssertionCls cl eid d)
  ∧ calls (client (snd (Assertion.revoke_def [PStr "spam"] (known AssertionCls answering))))
    = [mkApiCall "/v2/assertions/abc" "DELETE" PNone PNone].
Proof.
  repeat split.
  unfold Assertion.revoke_def, Base.delete_def, Base.get_entity_ep. run. simpl.
  destruct (py_str eid); reflexivity.
Qed.

(** C7: [update()] cannot be called, whatever the instance: no PUT is
    sent and nothing is re-fetched.  The guarded function behind it, run on
    an instance with an id and a server that answers, sends the PUT of the
    local data and then fails on the re-fetch, [self.fetch] being [None]:
    the local data is not replaced. *)
Theorem update_sends_nothing (args : list pyval) (self : Model) :
  call Base.update args self = (Raised TypeError, self)
  ∧ fst (check_id Base.update_def [] (known IssuerCls answering)) = Raised TypeError
  ∧ calls (client (snd (check_id Base.update_def [] (known IssuerCls answering))))
    = [mkApiCall "/v2/issuers/abc" "PUT" (data (known IssuerCls answering)) PNone]
  ∧ data (snd (check_id Base.update_def [] (known IssuerCls answering)))
    = data (known IssuerCls answering).
Proof. repeat split. Qed.

(** C8: [edit_staff(action, email, role)] cannot be called, whatever the
    arguments: nothing is validated and nothing is sent.  The guarded
    function behind it, run with a valid action and role, POSTs the payload
    to the legacy endpoint and then fails on the re-fetch. *)
Theorem edit_staff_sends_nothing (args : list pyval) (self : Model) :
  call Issuer.edit_staff args self = (Raised TypeError, self)
  ∧ fst (check_id Issuer.edit_staff_def
           [PStr "add"; PStr "jane@gmail.com"; PStr "staff"]
           (known IssuerCls answering)) = Raised TypeError
  ∧ calls (client (snd (check_id Issuer.edit_staff_def
                          [PStr "add"; PStr "jane@gmail.com"; PStr "staff"]
                          (known IssuerCls answering))))
    = [mkApiCall "/v1/issuer/issuers/abc/staff" "POST"
         (PDict (<["action" := PStr "add"]> (
                 <["email" := PStr "jane@gmail.com"]> (
                 <["role" := PStr "staff"]> ∅)))) PNone].
Proof. repeat split. Qed.

(** C9: [fetch_assertions(recipient)] cannot be called; and the function
    behind it never uses [recipient]: two recipients give the same run, and
    the request it makes carries no query parameters. *)
Theorem fetch_assertions_ignores_recipient
    (recipient recipient' : pyval) (self : Model) :
  call BadgeClass.fetch_assertions [recipient] self = (Raised TypeError, self)
  ∧ BadgeClass.fetch_assertions_def [recipient] self
    = BadgeClass.fetch_assertions_def [recipient'] self
  ∧ calls (client (snd (check_id BadgeClass.fetch_assertions_def
                          [PStr "test_email@dummy.com"]
                          (known BadgeClassCls answering))))
    = [mkApiCall "/v2/badgeclasses/abc/assertions" "GET" PNone PNone].
Proof. repeat split. Qed.

(** ** Further properties of the functions as written *)



(** The function behind [edit_staff], under the id guard, checks the
    action and the role before anything else: with an action outside
    [add], [modify], [remove], or a role outside [owner], [editor], [staff],
    it raises and makes no request. *)
Theorem edit_staff_def_validates
    (action email role : pyval) (self : Model) :
  truthy (entityId self) = true →
  in_strs action ["add"; "modify"; "remove"] = false
  ∨ in_strs role ["owner"; "editor"; "staff"] = false →
  ∃ msg, check_id Issuer.edit_staff_def [action; email; role] self
         = (Raised (Exception msg), self).
Proof.
  intros Hid Hbad. rewrite check_id_run, Hid. unfold Issuer.edit_staff_def.
  destruct (in_strs action ["add"; "modify"; "remove"]); simpl.
  - destruct Hbad as [Habs|Hrole]; [discriminate|]. rewrite Hrole. simpl. eauto.
  - eauto.
Qed.

Lemma edit_staff_def_validates_witness :
  ∃ msg, check_id Issuer.edit_staff_def
           [PStr "promote"; PStr "jane@gmail.com"; PStr "staff"]
           (known IssuerCls answering)
         = (Raised (Exception msg), known IssuerCls answering).
Proof.
  apply (edit_staff_def_validates (PStr "promote") (PStr "jane@gmail.com")
           (PStr "staff") (known IssuerCls answering)).
  - reflexivity.
  - left. reflexivity.
Defined.

(** ** [set_data] on any value *)

(** [set_data(d)] assigns [d] to the data before anything else: whatever
    [d] is and however the call ends, the data is [d] afterwards, the class
    and the client are untouched, and the entity id is either the previous
    one or the value [d], a dictionary, holds under [entityId]. *)
Theorem set_data_any_value (d : pyval) (self : Model) :
  data (snd (Base.set_data d self)) = d
  ∧ cls (snd (Base.set_data d self)) = cls self
  ∧ client (snd (Base.set_data d self)) = client self
  ∧ (entityId (snd (Base.set_data d self)) = entityId self
     ∨ ∃ m, d = PDict m
            ∧ m !! "entityId" = Some (entityId (snd (Base.set_data d self)))).
Proof.
  unfold Base.set_data. run.
  destruct d as [| b | n | s | l | m]; simpl; try (repeat split; eauto; fail).
  - destruct (is_substring "entityId" s); simpl; repeat split; eauto.
  - destruct (existsb (is_str "entityId") l); simpl; repeat split; eauto.
  - destruct (m !! "entityId") as [v|] eqn:Hv; simpl; repeat split; eauto.
Qed.

(** How [set_data(d)] ends on values that are not dictionaries.  On
    [None], a boolean or an integer the membership test raises a
    [TypeError]; on a string in which [entityId] occurs, and on a list that
    has the string [entityId] among its elements, the test passes and the
    lookup raises a [TypeError]; in all these cases [d] is the data by then
    and the entity id is untouched.  On a string in which [entityId] does
    not occur and on a list without that element the call returns the
    receiver, with [d] as its data and its entity id untouched. *)
Theorem set_data_outcome (self : Model) :
  Base.set_data PNone self = (Raised TypeError, with_data PNone self)
  ∧ (∀ b, Base.set_data (PBool b) self
          = (Raised TypeError, with_data (PBool b) self))
  ∧ (∀ n, Base.set_data (PInt n) self
          = (Raised TypeError, with_data (PInt n) self))
  ∧ (∀ s, Base.set_data (PStr s) self
          = if is_substring "entityId" s
            then (Raised TypeError, with_data (PStr s) self)
            else (Returned (with_data (PStr s) self), with_data (PStr s) self))
  ∧ (∀ l, Base.set_data (PList l) self
          = if existsb (is_str "entityId") l
            then (Raised TypeError, with_data (PList l) self)
            else (Returned (with_data (PList l) self), with_data (PList l) self)).
Proof.
  unfold Base.set_data. run. simpl. repeat split.
  - intros s. destruct (is_substring "entityId" s); reflexivity.
  - intros l. destruct (existsb (is_str "entityId") l); reflexivity.
Qed.

Lemma set_data_dict (d : gmap string pyval) (self : Model) :
  snd (Base.set_data (PDict d) self)
  = {| cls := cls self;
       client := client self;
       entityId := default (entityId self) (d !! "entityId");
       data := PDict d |}.
Proof.
  unfold Base.set_data. run. simpl.
  destruct (d !! "entityId"); simpl; [reflexivity|destruct self; reflexivity].
Qed.

(** Two [set_data] calls in a row: the data is that of the second call,
    and the entity id is the one the second dictionary holds, else the one
    the first holds, else the one the instance had.  In particular data
    without the key [entityId] never clears an id, and repeating a call
    changes nothing. *)
Theorem set_data_twice (d1 d2 : gmap string pyval) (self : Model) :
  snd (Base.set_data (PDict d2) (snd (Base.set_data (PDict d1) self)))
  = {| cls := cls self;
       client := client self;
       entityId := default (default (entityId self) (d1 !! "entityId"))
                           (d2 !! "entityId");
       data := PDict d2 |}
  ∧ snd (Base.set_data (PDict d1) (snd (Base.set_data (PDict d1) self)))
    = snd (Base.set_data (PDict d1) self).
Proof.
  rewrite !set_data_dict. simpl. split; [reflexivity|].
  destruct (d1 !! "entityId"); reflexivity.
Qed.

(** ** Entity endpoints *)

(** Two instances with string ids have the same entity endpoint only when
    they are of the same class and have the same id: no endpoint of one
    resource is an endpoint of another. *)
Theorem entity_endpoints_distinct
    (c1 c2 : ModelClass) (cl1 cl2 : BadgrClient) (s1 s2 : string) (d1 d2 : pyval) :
  fst (Base.get_entity_ep (mkModel c1 cl1 (PStr s1) d1))
  = fst (Base.get_entity_ep (mkModel c2 cl2 (PStr s2) d2)) →
  c1 = c2 ∧ s1 = s2.
Proof.
  unfold Base.get_entity_ep. run. simpl. intros H.
  destruct c1, c2; simpl in H; simplify_eq; done.
Qed.

Lemma entity_endpoints_distinct_witness :
  IssuerCls = IssuerCls ∧ "abc" = "abc".
Proof.
  apply (entity_endpoints_distinct IssuerCls IssuerCls
           (loaded_client answering) (loaded_client refusing)
           "abc" "abc" PNone (PStr "x")).
  reflexivity.
Defined.

(** ** What the operations do to the instance, step by step *)

#[local] Instance appends_at_most_refl (n : nat) : Reflexive (appends_at_most n).
Proof.
  intros self. unfold appends_at_most. repeat split.
  exists []. rewrite app_nil_r. split; [reflexivity|simpl; lia].
Qed.

Lemma appends_at_most_trans (a b : nat) (s1 s2 s3 : Model) :
  appends_at_most a s1 s2 → appends_at_most b s2 s3 →
  appends_at_most (a + b) s1 s3.
Proof.
  intros (Hc1 & Ht1 & Hd1 & Hn1 & l1 & Hl1 & Hlen1)
         (Hc2 & Ht2 & Hd2 & Hn2 & l2 & Hl2 & Hlen2).
  unfold appends_at_most. repeat split; try congruence.
  exists (l1 ++ l2). rewrite Hl2, Hl1, app_assoc, length_app.
  split; [reflexivity|lia].
Qed.

#[local] Instance same_entity_refl : Reflexive same_entity.
Proof. intros self. split; reflexivity. Qed.

#[local] Instance same_entity_trans : Transitive same_entity.
Proof. intros s1 s2 s3 [? ?] [? ?]. split; congruence. Qed.

Section Always.
Context {R : Model → Model → Prop} `{!Reflexive R}.

Lemma always_ret {A} (a : A) : always R (ret a).
Proof. intros self. reflexivity. Qed.

Lemma always_raise {A} (e : PyExc) : always R (raise (A := A) e).
Proof. intros self. reflexivity. Qed.

Lemma always_lift {A} (o : Outcome A) : always R (lift o).
Proof. intros self. reflexivity. Qed.

Lemma always_get_self : always R get_self.
Proof. intros self. reflexivity. Qed.

Lemma always_format (v : pyval) : always R (format v).
Proof. intros self. unfold format. destruct (py_str v); reflexivity. Qed.

Lemma always_deserialize (v : pyval) : always R (_deserialize v).
Proof. intros self. reflexivity. Qed.

Lemma always_call_decorated (func : Method) (args : list pyval) :
  always R (call (eid_required func) args).
Proof. intros self. reflexivity. Qed.

Lemma always_bind {A B} `{!Transitive R} (m : M A) (k : A → M B) :
  always R m → (∀ x, always R (k x)) → always R (mbind k m).
Proof.
  intros Hm Hk self. specialize (Hm self).
  unfold mbind, M_bind, bind. destruct (m self) as [[a|e|] self']; simpl in *.
  - etransitivity; [exact Hm|apply Hk].
  - exact Hm.
  - exact Hm.
Qed.
End Always.

Lemma always_void {A} (R : Model → Model → Prop) (m : M A) :
  always R m → always R (void m).
Proof.
  intros Hm self. specialize (Hm self). unfold void.
  destruct (m self) as [[a|e|] self']; exact Hm.
Qed.

Lemma appends_bind {A B} (a b : nat) (m : M A) (k : A → M B) :
  always (appends_at_most a) m → (∀ x, always (appends_at_most b) (k x)) →
  always (appends_at_most (a + b)) (mbind k m).
Proof.
  intros Hm Hk self. specialize (Hm self).
  unfold mbind, M_bind, bind. destruct (m self) as [[x|e|] self'] eqn:E; simpl in *.
  - eapply appends_at_most_trans; [exact Hm|apply Hk].
  - eapply appends_at_most_trans; [exact Hm|reflexivity].
  - eapply appends_at_most_trans; [exact Hm|reflexivity].
Qed.

Lemma appends_bind_before {A B} (n : nat) (m : M A) (k : A → M B) :
  always (appends_at_most 0) m → (∀ x, always (appends_at_most n) (k x)) →
  always (appends_at_most n) (mbind k m).
Proof. apply (appends_bind 0 n). Qed.

Lemma appends_bind_after {A B} (n : nat) (m : M A) (k : A → M B) :
  always (appends_at_most n) m → (∀ x, always (appends_at_most 0) (k x)) →
  always (appends_at_most n) (mbind k m).
Proof. rewrite <- (Nat.add_0_r n) at 2. apply (appends_bind n 0). Qed.

Lemma appends_set_entityId (n : nat) (v : pyval) :
  always (appends_at_most n) (set_entityId v).
Proof. intros self. apply (appends_at_most_refl n self). Qed.

Lemma appends_set_data_attr (n : nat) (v : pyval) :
  always (appends_at_most n) (set_data_attr v).
Proof. intros self. apply (appends_at_most_refl n self). Qed.

Lemma appends_call_api (n : nat) (path method : string) (payload params : pyval) :
  always (appends_at_most (S n)) (_call_api path method payload params).
Proof.
  intros self. unfold appends_at_most. simpl. repeat split.
  eexists [_]. split; [reflexivity|simpl; lia].
Qed.

Lemma appends_on_new {A} (n : nat) (c : ModelClass) (m : M A) :
  always (appends_at_most n) m → always (appends_at_most n) (on_new c m).
Proof.
  intros Hm self. specialize (Hm (init c (client self))).
  unfold on_new. destruct (m (init c (client self))) as [r obj].
  destruct Hm as (_ & Ht & Hd & Hn & Hl). unfold appends_at_most. simpl in *.
  repeat split; assumption.
Qed.

Lemma same_entity_call_api (path method : string) (payload params : pyval) :
  always same_entity (_call_api path method payload params).
Proof. intros self. split; reflexivity. Qed.

Lemma same_entity_on_new {A} (c : ModelClass) (m : M A) :
  always same_entity (on_new c m).
Proof.
  intros self. unfold on_new.
  destruct (m (init c (client self))) as [r obj]. split; reflexivity.
Qed.

(** One step of the analysis of a method body, for either relation. *)
Ltac always_step :=
  lazymatch goal with
  | |- always (appends_at_most _) (mbind _ _) =>
      first [ apply appends_bind_before; [solve [repeat always_step]|intros]
            | apply appends_bind_after; [|intros; solve [repeat always_step]] ]
  | |- always same_entity (mbind _ _) => apply always_bind; [|intros]
  | |- always _ (void _) => apply always_void
  | |- always _ (call (eid_required _) _) => apply always_call_decorated
  | |- always _ (match ?x with _ => _ end) => destruct x
  | |- always _ _ =>
      first [ apply always_ret | apply always_raise | apply always_lift
            | apply always_get_self | apply always_format
            | apply always_deserialize
            | apply appends_set_entityId | apply appends_set_data_attr
            | apply appends_call_api | apply appends_on_new
            | apply same_entity_call_api | apply same_entity_on_new
            | progress unfold Base.set_data, Base.get_entity_ep, store_created,
                Issuer.V1_ENDPOINT_format, check_id, BadgeClass.create,
                Issuer.create, Assertion.create,
                Base.fetch, Base.update, Base.delete, Assertion.revoke,
                BadgeClass.fetch_assertions, Issuer.edit_staff,
                Issuer.fetch_assertions, Issuer.fetch_badgeclasses,
                Issuer.create_badgeclass,
                Base.delete_def, Base.update_def, Base.fetch_def,
                Assertion.revoke_def, BadgeClass.fetch_assertions_def,
                Issuer.edit_staff_def, Issuer.fetch_assertions_def,
                Issuer.fetch_badgeclasses_def, Issuer.create_badgeclass_def ]
  end.

(** No operation of the module does more to the client than append one
    request to its log: the class of the instance, the transport, the
    deserializer and the Name Cache stay as they are, earlier requests stay
    in place, and at most one request is added, also by [update] and
    [edit_staff], whose re-fetch never reaches the network. *)
Theorem operations_append_at_most_one (o : Operation) (self : Model) :
  appends_at_most 1 self (snd (run_operation o self)).
Proof.
  revert self. change (always (appends_at_most 1) (run_operation o)).
  destruct o as [op | d | | f args | f args | f args]; unfold run_operation.
  - destruct op; unfold run_write; repeat always_step.
  - repeat always_step.
  - repeat always_step.
  - destruct f; unfold attr_of; repeat always_step.
  - destruct f; unfold def_of; repeat always_step.
  - destruct f; unfold def_of; repeat always_step.
Qed.

(** Only [set_data], the three [create] operations and the function
    [fetch] can store anything into an instance.  Every other operation
    leaves the entity id and the local data as they were, whatever the
    server answers: so do [delete] and [revoke], the listings, and also
    [update] and [edit_staff], whose re-fetch never replaces the data, and
    [create_badgeclass], which fills a new object and not the issuer. *)
Theorem only_fetch_and_create_store (o : Operation) (self : Model) :
  may_store o = false →
  same_entity self (snd (run_operation o self)).
Proof.
  intros Hread. revert self. change (always same_entity (run_operation o)).
  destruct o as [op | d | | f args | f args | f args]; unfold run_operation.
  - destruct op; try discriminate; unfold run_write; repeat always_step.
  - discriminate.
  - repeat always_step.
  - destruct f; unfold attr_of; repeat always_step.
  - destruct f; try discriminate; unfold def_of; repeat always_step.
  - destruct f; try discriminate; unfold def_of; repeat always_step.
Qed.

Lemma only_fetch_and_create_store_witness :
  same_entity (known IssuerCls answering)
    (snd (run_operation (Guarded F_update []) (known IssuerCls answering)))
  ∧ same_entity (known IssuerCls answering)
      (snd (run_operation
              (Guarded F_create_badgeclass
                 [PStr "Speak Up!"; PStr "idk"; PStr "something"; PStr "hahahaha"])
              (known IssuerCls answering))).
Proof.
  split.
  - apply (only_fetch_and_create_store (Guarded F_update [])
             (known IssuerCls answering)). reflexivity.
  - apply (only_fetch_and_create_store
             (Guarded F_create_badgeclass
                [PStr "Speak Up!"; PStr "idk"; PStr "something"; PStr "hahahaha"])
             (known IssuerCls answering)). reflexivity.
Defined.

(** ** The functions behind the decorated methods *)

(** The two functions that re-fetch after writing, [update] and
    [edit_staff], can never return: with or without the guard, whatever the
    arguments, the instance and the server's answers, every run ends in an
    exception (or leaves the modelled fragment), because the re-fetch calls
    [self.fetch], which is [None]. *)
Theorem refetching_functions_never_return (args : list pyval) (self : Model) :
  fst (run_operation (AsWritten F_update args) self) ≠ Returned tt
  ∧ fst (run_operation (Guarded F_update args) self) ≠ Returned tt
  ∧ fst (run_operation (AsWritten F_edit_staff args) self) ≠ Returned tt
  ∧ fst (run_operation (Guarded F_edit_staff args) self) ≠ Returned tt.
Proof.
  unfold run_operation, void, def_of, Base.update_def, Issuer.edit_staff_def,
    Base.get_entity_ep, Issuer.V1_ENDPOINT_format, Base.fetch.
  run.
  repeat split; repeat case_match; simplify_eq/=; done.
Qed.

(** The function behind [fetch], under the id guard, on an instance whose
    id is truthy and renders as [eid]: when the server answers the GET of
    the entity endpoint with a result list headed by a dictionary, the call
    returns [None], the local data is that dictionary, the entity id is the
    one it holds (the previous one when it holds none), and the GET is the
    one request made. *)
Theorem fetch_def_replaces_data
    (self : Model) (eid : string) (response : pyval) (d : gmap string pyval) :
  truthy (entityId self) = true →
  py_str (entityId self) = Some eid →
  transport (client self) (calls (client self))
    (entity_request (cls self) eid "GET" PNone) = inr response →
  first_result response = Returned (PDict d) →
  check_id Base.fetch_def [] self
  = (Returned PNone,
     {| cls := cls self;
        client := log_call (entity_request (cls self) eid "GET" PNone) (client self);
        entityId := default (entityId self) (d !! "entityId");
        data := PDict d |}).
Proof.
  intros Hid Heid Hanswer Hfirst.
  unfold first_result in Hfirst.
  destruct (getitem_str response "result") as [results| |] eqn:Hresults;
    try discriminate.
  unfold check_id, Base.fetch_def, Base.get_entity_ep, Base.set_data,
    entity_request in *.
  run. rewrite Hid, Heid. simpl. rewrite Hanswer, Hresults, Hfirst. simpl.
  destruct (d !! "entityId"); reflexivity.
Qed.

Lemma fetch_def_replaces_data_witness :
  check_id Base.fetch_def [] (known IssuerCls answering)
  = (Returned PNone,
     {| cls := IssuerCls;
        client := log_call (entity_request IssuerCls "abc" "GET" PNone)
                    (loaded_client answering);
        entityId := default (PStr "abc")
                      (({[ "entityId" := PStr "id1" ]} : gmap string pyval)
                         !! "entityId");
        data := PDict {[ "entityId" := PStr "id1" ]} |}).
Proof.
  exact (fetch_def_replaces_data (known IssuerCls answering) "abc"
           (PDict {[ "result" := PList [PDict {[ "entityId" := PStr "id1" ]}] ]})
           {[ "entityId" := PStr "id1" ]}
           eq_refl eq_refl eq_refl eq_refl).
Defined.




Lemma truthy_nonempty_str (s : string) : s ≠ "" → truthy (PStr s) = true.
Proof. intros Hs. destruct s; [done|reflexivity]. Qed.

(** The functions behind [delete] and [revoke], under the id guard, on an
    instance whose id is a non-empty string: each makes one request, a
    DELETE of the entity endpoint without payload or parameters, and hands
    back what the transport gives, the body as it is or the exception; the
    instance keeps its id and its data. *)
Theorem delete_and_revoke_send_one_delete
    (c : ModelClass) (cl : BadgrClient) (s : string) (d reason : pyval) :
  s ≠ "" →
  check_id Base.delete_def [] (mkModel c cl (PStr s) d)
  = (of_sum (transport cl (calls cl) (entity_request c s "DELETE" PNone)),
     mkModel c (log_call (entity_request c s "DELETE" PNone) cl) (PStr s) d)
  ∧ check_id Assertion.revoke_def [reason] (mkModel AssertionCls cl (PStr s) d)
    = (of_sum (transport cl (calls cl)
                 (entity_request AssertionCls s "DELETE" PNone)),
       mkModel AssertionCls
         (log_call (entity_request AssertionCls s "DELETE" PNone) cl) (PStr s) d).
Proof.
  intros Hs. pose proof (truthy_nonempty_str s Hs) as Hid.
  unfold check_id, Base.delete_def, Assertion.revoke_def, Base.get_entity_ep,
    entity_request.
  run. cbn [entityId]. rewrite Hid. simpl.
  split.
  - destruct (transport cl (calls cl) _); reflexivity.
  - destruct (transport cl (calls cl) _); reflexivity.
Qed.

Lemma delete_and_revoke_send_one_delete_witness :
  check_id Base.delete_def [] (mkModel IssuerCls (loaded_client refusing) (PStr "abc") PNone)
  = (of_sum (transport (loaded_client refusing) (calls (loaded_client refusing))
               (entity_request IssuerCls "abc" "DELETE" PNone)),
     mkModel IssuerCls
       (log_call (entity_request IssuerCls "abc" "DELETE" PNone)
          (loaded_client refusing)) (PStr "abc") PNone)
  ∧ check_id Assertion.revoke_def [PStr "spam"]
      (mkModel AssertionCls (loaded_client refusing) (PStr "abc") PNone)
    = (of_sum (transport (loaded_client refusing) (calls (loaded_client refusing))
                 (entity_request AssertionCls "abc" "DELETE" PNone)),
       mkModel AssertionCls
         (log_call (entity_request AssertionCls "abc" "DELETE" PNone)
            (loaded_client refusing)) (PStr "abc") PNone).
Proof.
  apply (delete_and_revoke_send_one_delete IssuerCls (loaded_client refusing)
           "abc" PNone (PStr "spam")).
  discriminate.
Defined.

Lemma store_created_first
    (response : pyval) (m : gmap string pyval) (self : Model) :
  first_result response = Returned (PDict m) →
  store_created response self
  = (Returned (PBool true),
     {| cls := cls self;
        client := client self;
        entityId := default (entityId self) (m !! "entityId");
        data := PDict m |}).
Proof.
  unfold first_result, store_created, Base.set_data. run. intros Hfirst.
  destruct (getitem_str response "result") as [results| |]; try discriminate.
  rewrite Hfirst. simpl.
  destruct (m !! "entityId"); simpl; [reflexivity|destruct self; reflexivity].
Qed.

Lemma badgeclass_create_success
    (name image description issuer_eid
     criteria_text criteria_url alignment tags expires : pyval)
    (self : Model) (response : pyval) (m : gmap string pyval) :
  truthy (py_or criteria_text criteria_url) = true →
  transport (client self) (calls (client self))
    (mkApiCall "/v2/badgeclasses" "POST"
       (badgeclass_payload name image description issuer_eid
          criteria_text criteria_url alignment tags expires) PNone)
  = inr response →
  first_result response = Returned (PDict m) →
  BadgeClass.create name image description issuer_eid
    criteria_text criteria_url alignment tags expires self
  = (Returned (PBool true),
     {| cls := cls self;
        client := log_call
                    (mkApiCall "/v2/badgeclasses" "POST"
                       (badgeclass_payload name image description issuer_eid
                          criteria_text criteria_url alignment tags expires) PNone)
                    (client self);
        entityId := default (entityId self) (m !! "entityId");
        data := PDict m |}).
Proof.
  intros Hpass Hanswer Hfirst. unfold BadgeClass.create. rewrite Hpass.
  cbv [negb mbind M_bind bind _call_api]. cbv beta.
  change BadgeClass.ENDPOINT with "/v2/badgeclasses".
  unfold badgeclass_payload in Hanswer. rewrite Hanswer. simpl of_sum. cbv iota.
  rewrite (store_created_first _ _ _ Hfirst). reflexivity.
Qed.

(** The function behind [create_badgeclass], under the id guard, on an
    issuer whose id is a non-empty string, called with a name, an image, a
    description and a truthy [criteria_text]: the parameters left out are
    [None], the issuer's own id goes into the payload as [issuer], the POST
    to the badge class collection is the one request, and when the server
    answers with an entity the call returns [True], not the badge class,
    whose data ends in a new object the issuer does not keep. *)
Theorem create_badgeclass_def_posts_for_issuer
    (cl : BadgrClient) (s : string) (d name image description criteria_text : pyval)
    (response : pyval) (m : gmap string pyval) :
  s ≠ "" →
  truthy criteria_text = true →
  transport cl (calls cl)
    (mkApiCall "/v2/badgeclasses" "POST"
       (badgeclass_payload name image description (PStr s)
          criteria_text PNone PNone PNone PNone) PNone) = inr response →
  first_result response = Returned (PDict m) →
  check_id Issuer.create_badgeclass_def [name; image; description; criteria_text]
    (mkModel IssuerCls cl (PStr s) d)
  = (Returned (PBool true),
     mkModel IssuerCls
       (log_call
          (mkApiCall "/v2/badgeclasses" "POST"
             (badgeclass_payload name image description (PStr s)
                criteria_text PNone PNone PNone PNone) PNone) cl)
       (PStr s) d).
Proof.
  intros Hs Hcrit Hanswer Hfirst. pose proof (truthy_nonempty_str s Hs) as Hid.
  rewrite check_id_run. cbn [entityId]. rewrite Hid.
  unfold Issuer.create_badgeclass_def.
  cbn [app replicate length Nat.sub].
  cbv [mbind M_bind bind get_self on_new]. cbn [entityId client].
  rewrite (badgeclass_create_success name image description (PStr s)
             criteria_text PNone PNone PNone PNone (init BadgeClassCls cl)
             response m).
  - reflexivity.
  - unfold py_or. rewrite Hcrit. exact Hcrit.
  - exact Hanswer.
  - exact Hfirst.
Qed.

Lemma create_badgeclass_def_posts_for_issuer_witness :
  check_id Issuer.create_badgeclass_def
    [PStr "Speak Up!"; PStr "idk"; PStr "something"; PStr "hahahaha"]
    (mkModel IssuerCls (loaded_client answering) (PStr "abc") PNone)
  = (Returned (PBool true),
     mkModel IssuerCls
       (log_call
          (mkApiCall "/v2/badgeclasses" "POST"
             (badgeclass_payload (PStr "Speak Up!") (PStr "idk") (PStr "something")
                (PStr "abc") (PStr "hahahaha") PNone PNone PNone PNone) PNone)
          (loaded_client answering))
       (PStr "abc") PNone).
Proof.
  apply (create_badgeclass_def_posts_for_issuer (loaded_client answering) "abc"
           PNone (PStr "Speak Up!") (PStr "idk") (PStr "something") (PStr "hahahaha")
           (PDict {[ "result" := PList [PDict {[ "entityId" := PStr "id1" ]}] ]})
           {[ "entityId" := PStr "id1" ]}).
  - discriminate.
  - reflexivity.
  - reflexivity.
  - reflexivity.
Defined.

(** The payload [BadgeClass.create] sends always has the same nine keys,
    carries the issuer id it was given, and never carries [None] (or any
    other falsy value than the empty list) for [tags] and [alignments]. *)
Theorem badgeclass_create_payload_shape
    (name image description issuer_eid
     criteria_text criteria_url alignment tags expires : pyval) (self : Model) :
  truthy (py_or criteria_text criteria_url) = true →
  ∃ q payload,
    last (calls (client (snd (BadgeClass.create name image description issuer_eid
                                criteria_text criteria_url alignment tags expires
                                self)))) = Some q
    ∧ call_data q = PDict payload
    ∧ dom payload
      = list_to_set ["name"; "image"; "issuer"; "description"; "criteria_text";
                     "criteria_url"; "alignments"; "tags"; "expires"]
    ∧ payload !! "issuer" = Some issuer_eid
    ∧ (∃ v, payload !! "tags" = Some v ∧ (truthy v = true ∨ v = PList []))
    ∧ (∃ v, payload !! "alignments" = Some v ∧ (truthy v = true ∨ v = PList [])).
Proof.
  intros Hpass.
  rewrite (badgeclass_create_passed _ _ _ _ _ _ _ _ _ _ Hpass).
  rewrite last_snoc. eexists _, _. split; [reflexivity|].
  split; [reflexivity|].
  split; [rewrite !dom_insert_L, dom_empty_L; set_solver|].
  split; [by simplify_map_eq|].
  split.
  - exists (or_empty_list tags). split; [by simplify_map_eq|].
    unfold or_empty_list. destruct (truthy tags) eqn:E; auto.
  - exists (or_empty_list alignment). split; [by simplify_map_eq|].
    unfold or_empty_list. destruct (truthy alignment) eqn:E; auto.
Qed.

Lemma badgeclass_create_payload_shape_witness :
  ∃ q payload,
    last (calls (client (snd (BadgeClass.create
            (PStr "Speak Up!") (PStr "idk") (PStr "something") (PStr "X")
            PNone (PStr "https://example.org/criteria") PNone PNone PNone
            (init BadgeClassCls (loaded_client answering)))))) = Some q
    ∧ call_data q = PDict payload
    ∧ dom payload
      = list_to_set ["name"; "image"; "issuer"; "description"; "criteria_text";
                     "criteria_url"; "alignments"; "tags"; "expires"]
    ∧ payload !! "issuer" = Some (PStr "X")
    ∧ (∃ v, payload !! "tags" = Some v ∧ (truthy v = true ∨ v = PList []))
    ∧ (∃ v, payload !! "alignments" = Some v ∧ (truthy v = true ∨ v = PList [])).
Proof.
  apply (badgeclass_create_payload_shape
           (PStr "Speak Up!") (PStr "idk") (PStr "something") (PStr "X")
           PNone (PStr "https://example.org/criteria") PNone PNone PNone
           (init BadgeClassCls (loaded_client answering))).
  reflexivity.
Defined.



(** The three listing functions, under the id guard, on an instance whose
    id is truthy and renders as [eid]: each makes one GET, of the children
    path under the entity, without payload or parameters, and when the
    response has a [result] entry hands that entry to the client's
    [_deserialize] and returns what it gives; the instance keeps its id and
    data. *)
Theorem listings_deserialize_result
    (f : Func) (path : string) (self : Model) (eid : string)
    (response results : pyval) :
  listing_path f eid = Some path →
  truthy (entityId self) = true →
  py_str (entityId self) = Some eid →
  transport (client self) (calls (client self))
    (mkApiCall path "GET" PNone PNone) = inr response →
  getitem_str response "result" = Returned results →
  check_id (def_of f) [] self
  = (of_sum (deserialize (client self) results),
     with_client (log_call (mkApiCall path "GET" PNone PNone) (client self)) self).
Proof.
  intros Hpath Hid Heid Hanswer Hresults.
  rewrite check_id_run, Hid.
  destruct f; simpl in Hpath; simplify_eq; unfold def_of.
  - unfold BadgeClass.fetch_assertions_def. run. rewrite Heid.
    change (BadgeClass.ENDPOINT +:+ "/" +:+ eid +:+ "/assertions")
      with ("/v2/badgeclasses/" +:+ eid +:+ "/assertions").
    cbv beta iota. rewrite Hanswer, Hresults. reflexivity.
  - unfold Issuer.fetch_assertions_def. run. rewrite Heid.
    change (Issuer.ENDPOINT +:+ "/" +:+ eid +:+ "/assertions")
      with ("/v2/issuers/" +:+ eid +:+ "/assertions").
    cbv beta iota. rewrite Hanswer, Hresults. reflexivity.
  - unfold Issuer.fetch_badgeclasses_def. run. rewrite Heid.
    change (Issuer.ENDPOINT +:+ "/" +:+ eid +:+ "/badgeclasses")
      with ("/v2/issuers/" +:+ eid +:+ "/badgeclasses").
    cbv beta iota. rewrite Hanswer, Hresults. reflexivity.
Qed.

Lemma listings_deserialize_result_witness :
  check_id (def_of F_fetch_badgeclasses) [] (known IssuerCls answering)
  = (of_sum (deserialize (client (known IssuerCls answering))
               (PList [PDict {[ "entityId" := PStr "id1" ]}])),
     with_client
       (log_call (mkApiCall "/v2/issuers/abc/badgeclasses" "GET" PNone PNone)
          (client (known IssuerCls answering)))
       (known IssuerCls answering)).
Proof.
  apply (listings_deserialize_result F_fetch_badgeclasses
           "/v2/issuers/abc/badgeclasses" (known IssuerCls answering) "abc"
           (PDict {[ "result" := PList [PDict {[ "entityId" := PStr "id1" ]}] ]})
           (PList [PDict {[ "entityId" := PStr "id1" ]}])); reflexivity.
Defined.
